(** * pg_numa: basic NUMA portability routines (src/port/pg_numa.c)

    A shallow embedding of the C file.  The file is compiled in one of two
    shapes, chosen by the preprocessor symbol [USE_LIBNUMA]: wrappers that
    forward to libnuma, or empty wrappers.  Both shapes are embedded below
    (modules [Libnuma] and [Stub]) and the exported functions dispatch on
    the build, the way the [#ifdef] does.

    Everything the file calls but does not define (libnuma, libc, the
    operating system, the engine's error reporting and shared-memory code)
    is gathered in a [Host] record; the mutable program state the calls can
    touch is a [World]. *)

From stdpp Require Import base numbers gmap list strings.
From Stdlib Require Import ZArith Lia.

Local Open Scope Z_scope.

(* ------------------------------------------------------------------ *)
(** ** C types *)

(** [Size] is [size_t]; an LP64 target is assumed, so [long] and [Size]
    are both 64 bits wide. *)
Definition Size_bits : Z := 64.
Definition Size_modulus : Z := 2 ^ Size_bits.

(** Conversion of an integer value to the unsigned type [Size]. *)
Definition to_Size (z : Z) : Z := z mod Size_modulus.

Definition LONG_MAX : Z := 2 ^ 63 - 1.

(** The null pointer. *)
Definition NULL : Z := 0.

(** [_SC_PAGESIZE], the only name [sysconf] is asked for. *)
Inductive SysconfName := _SC_PAGESIZE.

(* ------------------------------------------------------------------ *)
(** ** Declarations taken from the engine's headers *)

(** Modelled from the spec: the enumeration behind [huge_pages_status]
    (declared in storage/pg_shmem.h, which is not part of src/port).  The
    spec speaks of huge-page support being active or not; the states are
    off, on, try and unknown. *)
Inductive HugePagesStatus :=
  | HUGE_PAGES_OFF
  | HUGE_PAGES_ON
  | HUGE_PAGES_TRY
  | HUGE_PAGES_UNKNOWN.

#[global] Instance HugePagesStatus_eq_dec : EqDecision HugePagesStatus.
Proof. solve_decision. Defined.

(** Modelled from the spec: severity levels of the engine's diagnostic
    channel (utils/elog.h, not part of src/port).  Reports below [ERROR] are non-fatal:
    control returns to the caller. *)
Inductive ErrorLevel :=
  | DEBUG | LOG | INFO | NOTICE | WARNING | ERROR | FATAL | PANIC.

Definition elevel_rank (l : ErrorLevel) : Z :=
  match l with
  | DEBUG => 0 | LOG => 1 | INFO => 2 | NOTICE => 3
  | WARNING => 4 | ERROR => 5 | FATAL => 6 | PANIC => 7
  end.

Definition is_fatal (l : ErrorLevel) : bool :=
  elevel_rank ERROR <=? elevel_rank l.

Inductive SqlState := ERRCODE_EXTERNAL_ROUTINE_EXCEPTION.

(** One report handed to the diagnostic channel.  [elog] passes no
    [errcode], hence the option. *)
Record LogEntry := mkLogEntry {
  le_level : ErrorLevel;
  le_sqlstate : option SqlState;
  le_message : string
}.

(** Modelled from the spec: conversion between C booleans and [Datum]
    ([PG_RETURN_BOOL] is [return BoolGetDatum(x)]; fmgr.h and postgres.h
    are not part of src/port). *)
Definition BoolGetDatum (b : bool) : Z := if b then 1 else 0.
Definition DatumGetBool (d : Z) : bool := negb (d =? 0).

(* ------------------------------------------------------------------ *)
(** ** Program state *)

(** The mutable state the routines of this file can reach: libc's [errno],
    the engine global [huge_pages_status], the diagnostic channel, and the
    caller's memory.  Pointer cells ([void *] objects, such as the entries
    of a [pages] array) and [int] cells (such as the entries of a [status]
    array) are distinct objects, addressed by cell index. *)
Record World := mkWorld {
  errno : Z;
  huge_pages_status : HugePagesStatus;
  server_log : list LogEntry;
  ptr_cells : gmap Z Z;
  int_cells : gmap Z Z
}.

Definition set_errno (e : Z) (w : World) : World :=
  mkWorld e (huge_pages_status w) (server_log w) (ptr_cells w) (int_cells w).

Definition set_int_cells (m : gmap Z Z) (w : World) : World :=
  mkWorld (errno w) (huge_pages_status w) (server_log w) (ptr_cells w) m.

Definition log_append (e : LogEntry) (w : World) : World :=
  mkWorld (errno w) (huge_pages_status w) (server_log w ++ [e])
          (ptr_cells w) (int_cells w).

(* ------------------------------------------------------------------ *)
(** ** The host *)

(** The routines outside this file that it calls.  Any of them may leave a
    different value in [errno]. *)
Inductive ExtCall :=
  | call_numa_available
  | call_numa_max_node
  | call_numa_move_pages
  | call_sysconf
  | call_GetSystemInfo
  | call_GetHugePageSize
  | call_initStringInfo
  | call_appendStringInfoVA
  | call_enlargeStringInfo
  | call_ereport
  | call_pfree.

(** A host configuration: how the file was built, and what the platform
    answers.  [libnuma_move_pages pid count pages nodes flags] gives the
    return value of [numa_move_pages] and the node (or negative error) it
    stores for each page; [vsnprintf_text fmt args] is the text a format
    expands to. *)
Record Host := mkHost {
  USE_LIBNUMA : bool;
  WIN32 : bool;
  libnuma_available : Z;
  libnuma_max_node : Z;
  libnuma_move_pages : Z -> Z -> list (option Z) -> Z -> Z -> Z * list Z;
  os_sysconf : SysconfName -> Z;
  os_dwPageSize : Z;
  shmem_hugepagesize : Z;
  errno_after : ExtCall -> Z -> Z;
  vsnprintf_text : string -> list Z -> string
}.

(* ------------------------------------------------------------------ *)
(** ** A state and error monad for C functions *)

(** A C function either returns to its caller or leaves through the
    engine's error recovery ([ereport] at [ERROR] or above). *)
Inductive Outcome (A : Type) :=
  | Returned (a : A)
  | Raised (e : LogEntry).
Arguments Returned {A} a.
Arguments Raised {A} e.

Definition M (A : Type) : Type := World -> Outcome A * World.

Definition ret {A} (a : A) : M A := fun w => (Returned a, w).

Definition bind {A B} (m : M A) (k : A -> M B) : M B :=
  fun w =>
    match m w with
    | (Returned a, w') => k a w'
    | (Raised e, w') => (Raised e, w')
    end.

Declare Scope c_scope.
Delimit Scope c_scope with C.
Notation "x <- m ;; k" := (bind m (fun x => k))
  (at level 100, m at next level, right associativity) : c_scope.
Notation "m ;;; k" := (bind m (fun _ => k))
  (at level 100, right associativity) : c_scope.
Local Open Scope c_scope.

Definition get_errno : M Z := fun w => (Returned (errno w), w).
Definition put_errno (e : Z) : M unit := fun w => (Returned tt, set_errno e w).
Definition get_huge_pages_status : M HugePagesStatus :=
  fun w => (Returned (huge_pages_status w), w).

(** What the caller observes of a call. *)
Definition result_of {A} (r : Outcome A * World) : Outcome A := fst r.
Definition world_of {A} (r : Outcome A * World) : World := snd r.

(* ------------------------------------------------------------------ *)
(** ** Memory access *)

(** The [count] pointer cells starting at [base]. *)
Definition read_ptrs (w : World) (base count : Z) : list (option Z) :=
  (fun i : nat => ptr_cells w !! (base + Z.of_nat i)) <$> seq 0 (Z.to_nat count).

(** Store [vs] into consecutive [int] cells starting at [base]. *)
Fixpoint write_ints (base : Z) (vs : list Z) (m : gmap Z Z) : gmap Z Z :=
  match vs with
  | [] => m
  | v :: vs' => write_ints (base + 1) vs' (<[base := v]> m)
  end.

Definition load_ptrs (base count : Z) : M (list (option Z)) :=
  fun w => (Returned (read_ptrs w base count), w).

Definition store_ints (base : Z) (vs : list Z) : M unit :=
  fun w => (Returned tt, set_int_cells (write_ints base vs (int_cells w)) w).

(* ------------------------------------------------------------------ *)
(** ** External routines *)

Section External.
Variable h : Host.

(** An external call may overwrite [errno]. *)
Definition extern (c : ExtCall) : M unit :=
  fun w => (Returned tt, set_errno (errno_after h c (errno w)) w).

(** libnuma (numa.h, numaif.h). *)
Definition numa_available : M Z :=
  extern call_numa_available ;;; ret (libnuma_available h).

Definition numa_max_node : M Z :=
  extern call_numa_max_node ;;; ret (libnuma_max_node h).

Definition numa_move_pages (pid count pages nodes status flags : Z) : M Z :=
  ps <- load_ptrs pages count ;;
  let '(r, st) := libnuma_move_pages h pid count ps nodes flags in
  store_ints status (take (Z.to_nat count) st) ;;;
  extern call_numa_move_pages ;;;
  ret r.

(** libc and the Windows API. *)
Definition sysconf (name : SysconfName) : M Z :=
  extern call_sysconf ;;; ret (os_sysconf h name).

Definition GetSystemInfo_dwPageSize : M Z :=
  extern call_GetSystemInfo ;;; ret (os_dwPageSize h).

(** Modelled from the spec: [GetHugePageSize(&size, NULL)] of the
    engine's shared-memory code (not part of src/port).  Through its
    first argument it stores the host's huge-page size; nothing is
    stored through the null second argument.  The function below maps
    the old contents of [size] to the new ones. *)
Definition GetHugePageSize (size : Z) (mmap_flags : Z) : M Z :=
  extern call_GetHugePageSize ;;; ret (shmem_hugepagesize h).

(** Modelled from the spec: the engine's diagnostic channel
    ([ereport]/[elog], utils/elog.c, not part of src/port).  The report is handed to
    the channel; below [ERROR] the call returns. *)
Definition ereport (elevel : ErrorLevel) (code : option SqlState)
           (msg : string) : M unit :=
  fun w =>
    let e := mkLogEntry elevel code msg in
    let w' := set_errno (errno_after h call_ereport (errno w)) (log_append e w) in
    if is_fatal elevel then (Raised e, w') else (Returned tt, w').

Definition elog (elevel : ErrorLevel) (msg : string) : M unit :=
  ereport elevel None msg.
End External.

(* ------------------------------------------------------------------ *)
(** ** The engine's string buffer *)

(** Modelled from the spec: the engine's expandable string buffer
    (lib/stringinfo.h, not part of src/port), which the warning adapter uses to build
    the text it re-emits.  [appendStringInfoVA] appends the formatted text
    and returns zero when it fits in the free space, and otherwise leaves
    the buffer alone and returns the space it needs; [enlargeStringInfo]
    makes room for that many more bytes. *)
Record StringInfoData := mkStringInfo {
  data : string;
  len : Z;
  maxlen : Z
}.

Definition STRINGINFO_DEFAULT_SIZE : Z := 1024.

Section StringInfo.
Variable h : Host.

Definition initStringInfo : M StringInfoData :=
  extern h call_initStringInfo ;;;
  ret (mkStringInfo EmptyString 0 STRINGINFO_DEFAULT_SIZE).

Definition appendStringInfoVA (str : StringInfoData) (fmt : string)
           (ap : list Z) : M (Z * StringInfoData) :=
  extern h call_appendStringInfoVA ;;;
  let text := vsnprintf_text h fmt ap in
  let nprinted := Z.of_nat (String.length text) in
  let avail := maxlen str - len str in
  if nprinted <? avail
  then ret (0, mkStringInfo (String.append (data str) text)
                            (len str + nprinted) (maxlen str))
  else ret (nprinted + 1, str).

Definition enlargeStringInfo (str : StringInfoData) (needed : Z)
  : M StringInfoData :=
  extern h call_enlargeStringInfo ;;;
  ret (mkStringInfo (data str) (len str)
                    (Z.max (maxlen str) (len str + needed + 1))).

Definition pfree (p : string) : M unit := extern h call_pfree.
End StringInfo.

(* ------------------------------------------------------------------ *)
(** ** The file built with libnuma ([#ifdef USE_LIBNUMA]) *)

Module Libnuma.
Section Routines.
Variable h : Host.

(** libnuma requires initialization as per numa(3) on Linux. *)
Definition pg_numa_init : M Z :=
  r <- numa_available h ;;
  ret r.

Definition pg_numa_query_pages (pid count pages status : Z) : M Z :=
  numa_move_pages h pid count pages NULL status 0.

Definition pg_numa_get_max_node : M Z :=
  numa_max_node h.

Definition pg_numa_get_pagesize : M Z :=
  v <- sysconf h _SC_PAGESIZE ;;
  let os_page_size := to_Size v in
  hps <- get_huge_pages_status ;;
  os_page_size <- (if decide (hps = HUGE_PAGES_ON)
                   then GetHugePageSize h os_page_size NULL
                   else ret os_page_size) ;;
  ret os_page_size.

(** The two adapters libnuma calls to report its own warnings and
    errors (compiled only when [FRONTEND] is not defined). *)
Definition numa_warn (num : Z) (fmt : string) (ap : list Z) : M unit :=
  olde <- get_errno ;;
  msg <- initStringInfo h ;;
  r <- appendStringInfoVA h msg fmt ap ;;
  let '(needed, msg) := r in
  msg <- (if 0 <? needed
          then msg <- enlargeStringInfo h msg needed ;;
               r <- appendStringInfoVA h msg fmt ap ;;
               ret (snd r)
          else ret msg) ;;
  ereport h WARNING (Some ERRCODE_EXTERNAL_ROUTINE_EXCEPTION)
          (String.append "libnuma: WARNING: " (data msg)) ;;;
  pfree h (data msg) ;;;
  put_errno olde.

Definition numa_error (where_ : string) : M unit :=
  olde <- get_errno ;;
  (* for now just WARNING *)
  elog h WARNING (String.append "libnuma: ERROR: " where_) ;;;
  put_errno olde.
End Routines.
End Libnuma.

(* ------------------------------------------------------------------ *)
(** ** The file built without libnuma ([#else]): empty wrappers *)

Module Stub.
Section Routines.
Variable h : Host.

(** We state that NUMA is not available. *)
Definition pg_numa_init : M Z :=
  ret (-1).

Definition pg_numa_query_pages (pid count pages status : Z) : M Z :=
  ret 0.

Definition pg_numa_get_max_node : M Z :=
  ret 0.

Definition pg_numa_get_pagesize : M Z :=
  os_page_size <- (if WIN32 h
                   then v <- GetSystemInfo_dwPageSize h ;; ret (to_Size v)
                   else v <- sysconf h _SC_PAGESIZE ;; ret (to_Size v)) ;;
  hps <- get_huge_pages_status ;;
  os_page_size <- (if decide (hps = HUGE_PAGES_ON)
                   then GetHugePageSize h os_page_size NULL
                   else ret os_page_size) ;;
  ret os_page_size.
End Routines.
End Stub.

(* ------------------------------------------------------------------ *)
(** ** The exported routines *)

Section Exported.
Variable h : Host.

Definition pg_numa_init : M Z :=
  if USE_LIBNUMA h then Libnuma.pg_numa_init h else Stub.pg_numa_init.

Definition pg_numa_query_pages (pid count pages status : Z) : M Z :=
  if USE_LIBNUMA h
  then Libnuma.pg_numa_query_pages h pid count pages status
  else Stub.pg_numa_query_pages pid count pages status.

Definition pg_numa_get_max_node : M Z :=
  if USE_LIBNUMA h then Libnuma.pg_numa_get_max_node h
  else Stub.pg_numa_get_max_node.

Definition pg_numa_get_pagesize : M Z :=
  if USE_LIBNUMA h then Libnuma.pg_numa_get_pagesize h
  else Stub.pg_numa_get_pagesize h.

(** The SQL-callable availability check, common to both builds. *)
Definition pg_numa_available (fcinfo : Z) : M Z :=
  r <- pg_numa_init ;;
  ret (BoolGetDatum (negb (r =? -1))).
End Exported.

(* ------------------------------------------------------------------ *)
(** ** Operations as data *)

(** The entry points of the file, with their arguments.  The two
    adapters exist only in the libnuma build. *)
Inductive Op :=
  | OpInit
  | OpQueryPages (pid count pages status : Z)
  | OpGetMaxNode
  | OpGetPagesize
  | OpAvailable (fcinfo : Z)
  | OpWarn (num : Z) (fmt : string) (ap : list Z)
  | OpError (where_ : string).

Inductive Value :=
  | VInt (z : Z)
  | VVoid.

Definition returning {A} (f : A -> Value) (m : M A) : M Value :=
  a <- m ;; ret (f a).

Definition run (h : Host) (op : Op) : M Value :=
  match op with
  | OpInit => returning VInt (pg_numa_init h)
  | OpQueryPages pid count pages status =>
      returning VInt (pg_numa_query_pages h pid count pages status)
  | OpGetMaxNode => returning VInt (pg_numa_get_max_node h)
  | OpGetPagesize => returning VInt (pg_numa_get_pagesize h)
  | OpAvailable fcinfo => returning VInt (pg_numa_available h fcinfo)
  | OpWarn num fmt ap => returning (fun _ => VVoid) (Libnuma.numa_warn h num fmt ap)
  | OpError where_ => returning (fun _ => VVoid) (Libnuma.numa_error h where_)
  end.

(** The five query routines, as opposed to the two adapters. *)
Definition is_query (op : Op) : bool :=
  match op with
  | OpWarn _ _ _ | OpError _ => false
  | _ => true
  end.

(* ------------------------------------------------------------------ *)
(** ** Page sizes of a host *)

(** The page size the host is configured with, as the operating system
    reports it to this build: [dwPageSize] in the Windows branch of the
    empty wrappers, and [sysconf(_SC_PAGESIZE)] everywhere else. *)
Definition configured_page_size (h : Host) : Z :=
  if negb (USE_LIBNUMA h) && WIN32 h
  then os_dwPageSize h
  else os_sysconf h _SC_PAGESIZE.

(** The same, converted to [Size] the way the assignment to
    [os_page_size] does. *)
Definition os_default_page_size (h : Host) : Z :=
  to_Size (configured_page_size h).

Definition PowerOfTwo (z : Z) : Prop := exists k, 0 <= k /\ z = 2 ^ k.

(** The usual bit test: positive, and no bit in common with its
    predecessor. *)
Definition is_power_of_two (z : Z) : bool :=
  (0 <? z) && (Z.land z (z - 1) =? 0).

(* ------------------------------------------------------------------ *)
(** ** Sample hosts and states *)

Definition no_pages_moved (pid count : Z) (ps : list (option Z))
           (nodes flags : Z) : Z * list Z :=
  (0, (fun _ => 0) <$> ps).

(** A Linux server with two NUMA nodes, built with libnuma. *)
Definition numa_server : Host :=
  mkHost true false 0 1 no_pages_moved (fun _ => 4096) 0 2097152
         (fun _ e => e) (fun fmt _ => fmt).

(** The same machine seen from a container that is denied the memory-policy
    system calls: libnuma reports itself unavailable, yet still reads the
    node list. *)
Definition confined_server : Host :=
  mkHost true false (-1) 1 no_pages_moved (fun _ => 4096) 0 2097152
         (fun _ _ => 1) (fun fmt _ => fmt).

(** A build without libnuma. *)
Definition plain_host : Host :=
  mkHost false false 0 0 no_pages_moved (fun _ => 4096) 0 2097152
         (fun _ _ => 22) (fun fmt _ => fmt).

(** A Windows server running with large pages, built against the
    shared-memory code whose [GetHugePageSize] has no size to report and
    stores zero. *)
Definition windows_large_pages_host : Host :=
  mkHost false true 0 0 no_pages_moved (fun _ => -1) 4096 0
         (fun _ e => e) (fun fmt _ => fmt).

(** A Linux server whose huge-page size is set to 12288 kB, three times
    4 MB. *)
Definition odd_huge_page_host : Host :=
  mkHost true false 0 1 no_pages_moved (fun _ => 4096) 0 12582912
         (fun _ e => e) (fun fmt _ => fmt).

(** A Windows build; there is no [sysconf] to ask. *)
Definition windows_host : Host :=
  mkHost false true 0 0 no_pages_moved (fun _ => -1) 4096 2097152
         (fun _ e => e) (fun fmt _ => fmt).

Definition quiet_world : World :=
  mkWorld 0 HUGE_PAGES_OFF [] ∅ ∅.

Definition huge_world : World :=
  mkWorld 0 HUGE_PAGES_ON [] ∅ ∅.

(** A caller that has laid out two pages and a status array. *)
Definition caller_world : World :=
  mkWorld 5 HUGE_PAGES_OFF [] {[ 100 := 4096; 101 := 8192 ]}
          {[ 200 := 7; 201 := 7 ]}.

(* ------------------------------------------------------------------ *)
(** ** Sequences of calls *)

(** The operations of [ops] called one after the other, each on the state
    the previous one left; the values they return, in call order. *)
Fixpoint run_all (h : Host) (ops : list Op) : M (list Value) :=
  match ops with
  | [] => ret []
  | op :: rest =>
      v <- run h op ;;
      vs <- run_all h rest ;;
      ret (v :: vs)
  end.

Definition is_adapter (op : Op) : bool := negb (is_query op).

Definition is_pagesize (op : Op) : bool :=
  match op with
  | OpGetPagesize => true
  | _ => false
  end.

(** A libnuma build on a system whose [sysconf] fails. *)
Definition failing_sysconf_host : Host :=
  mkHost true false 0 1 no_pages_moved (fun _ => -1) 0 2097152
         (fun _ e => e) (fun fmt _ => fmt).

(** A libnuma that finds the first page on node 0 and the second on
    node 1. *)
Definition two_nodes (pid count : Z) (ps : list (option Z))
           (nodes flags : Z) : Z * list Z :=
  (0, [0; 1]).

Definition two_node_server : Host :=
  mkHost true false 0 1 two_nodes (fun _ => 4096) 0 2097152
         (fun _ _ => 3) (fun fmt _ => fmt).

(* ------------------------------------------------------------------ *)
(** * Properties *)

Create HintDb pg_numa discriminated.

#[local] Hint Unfold
  result_of world_of bind ret get_errno put_errno get_huge_pages_status
  load_ptrs store_ints extern
  numa_available numa_max_node numa_move_pages sysconf
  GetSystemInfo_dwPageSize GetHugePageSize ereport elog
  initStringInfo appendStringInfoVA enlargeStringInfo pfree
  Libnuma.pg_numa_init Libnuma.pg_numa_query_pages
  Libnuma.pg_numa_get_max_node Libnuma.pg_numa_get_pagesize
  Libnuma.numa_warn Libnuma.numa_error
  Stub.pg_numa_init Stub.pg_numa_query_pages Stub.pg_numa_get_max_node
  Stub.pg_numa_get_pagesize
  pg_numa_init pg_numa_query_pages pg_numa_get_max_node
  pg_numa_get_pagesize pg_numa_available
  returning run : pg_numa.

(** Run the embedded C code symbolically. *)
Ltac exec := autounfold with pg_numa; cbn.

(** ** Integer facts *)

Lemma to_Size_small (z : Z) : 0 <= z < Size_modulus -> to_Size z = z.
Proof. intros Hz. unfold to_Size. apply Z.mod_small. exact Hz. Qed.

Lemma to_Size_range (z : Z) : 0 <= to_Size z < Size_modulus.
Proof. unfold to_Size. apply Z.mod_pos_bound. reflexivity. Qed.

Lemma PowerOfTwo_pos (z : Z) : PowerOfTwo z -> 0 < z.
Proof. intros (k & Hk & ->). apply Z.pow_pos_nonneg; lia. Qed.

Lemma land_pow2_pred (k : Z) : 0 <= k -> Z.land (2 ^ k) (2 ^ k - 1) = 0.
Proof.
  intros Hk.
  replace (2 ^ k - 1) with (Z.ones k) by (rewrite Z.ones_equiv; lia).
  apply Z.bits_inj'. intros n Hn.
  rewrite Z.land_spec, Z.bits_0, Z.pow2_bits_eqb by lia.
  destruct (Z.eqb_spec k n) as [->|Hne]; [|reflexivity].
  rewrite Z.ones_spec_high by lia. reflexivity.
Qed.

(** A positive number that is not a power of two shares its top bit with
    its predecessor. *)
Lemma top_bit_shared (z : Z) :
  0 < z -> z <> 2 ^ Z.log2 z ->
  Z.testbit (Z.land z (z - 1)) (Z.log2 z) = true.
Proof.
  intros Hz Hne.
  pose proof (Z.log2_spec z Hz) as [Hlo Hhi].
  assert (Hl : 0 <= Z.log2 z) by apply Z.log2_nonneg.
  assert (Hlog : Z.log2 (z - 1) = Z.log2 z).
  { apply Z.log2_unique; [exact Hl | lia]. }
  rewrite Z.land_spec, Z.bit_log2 by lia.
  rewrite <- Hlog. rewrite Z.bit_log2 by lia. reflexivity.
Qed.

Lemma is_power_of_two_spec (z : Z) :
  is_power_of_two z = true <-> PowerOfTwo z.
Proof.
  unfold is_power_of_two, PowerOfTwo. split.
  - intros H. apply andb_true_iff in H as [Hpos Hland].
    apply Z.ltb_lt in Hpos. apply Z.eqb_eq in Hland.
    exists (Z.log2 z). split; [apply Z.log2_nonneg|].
    destruct (Z.eq_dec z (2 ^ Z.log2 z)) as [|Hne]; [assumption|].
    pose proof (top_bit_shared z Hpos Hne) as Hbit.
    rewrite Hland, Z.bits_0 in Hbit. discriminate.
  - intros (k & Hk & ->). apply andb_true_iff. split.
    + apply Z.ltb_lt. apply Z.pow_pos_nonneg; lia.
    + apply Z.eqb_eq. apply land_pow2_pred. exact Hk.
Qed.

(** A page size the operating system can report survives the conversion
    to [Size]. *)
Lemma to_Size_page (z : Z) : PowerOfTwo z -> z <= LONG_MAX -> to_Size z = z.
Proof.
  intros Hp Hmax. apply to_Size_small.
  pose proof (PowerOfTwo_pos z Hp). unfold LONG_MAX in Hmax.
  unfold Size_modulus, Size_bits. lia.
Qed.

(** Which [long] values are a power of two once converted to [Size]:
    the powers of two themselves, and the most negative [long], which
    wraps around to [2 ^ 63]. *)
Lemma to_Size_long_pow2 (z : Z) :
  - LONG_MAX - 1 <= z <= LONG_MAX ->
  (PowerOfTwo (to_Size z) <-> PowerOfTwo z \/ z = - LONG_MAX - 1).
Proof.
  intros Hz. assert (Hm : Size_modulus = 2 * LONG_MAX + 2) by reflexivity.
  destruct (Z.neg_nonneg_cases z) as [Hneg|Hpos].
  - unfold to_Size.
    rewrite <- (Z.mod_unique_pos z Size_modulus (-1) (Size_modulus + z)) by lia.
    split.
    + intros (k & Hk & Hpow). right.
      assert (H63 : 2 ^ 63 = LONG_MAX + 1) by reflexivity.
      destruct (Z.lt_trichotomy k 63) as [Hlt|[->|Hgt]].
      * pose proof (Z.pow_le_mono_r 2 k 62 ltac:(lia) ltac:(lia)) as Hle.
        assert (H62 : 2 ^ 62 * 2 = LONG_MAX + 1) by reflexivity. lia.
      * lia.
      * pose proof (Z.pow_le_mono_r 2 64 k ltac:(lia) ltac:(lia)) as Hle.
        assert (H64 : 2 ^ 64 = Size_modulus) by reflexivity. lia.
    + intros [Hp| ->].
      * pose proof (PowerOfTwo_pos z Hp). lia.
      * exists 63. split; [lia | reflexivity].
  - rewrite to_Size_small by lia. split.
    + intros Hp. left. exact Hp.
    + intros [Hp|Heq]; [exact Hp | lia].
Qed.

(** ** The routines, one equation each *)

Lemma pg_numa_init_eq (h : Host) (w : World) :
  pg_numa_init h w =
  if USE_LIBNUMA h
  then (Returned (libnuma_available h),
        set_errno (errno_after h call_numa_available (errno w)) w)
  else (Returned (-1), w).
Proof. exec. destruct (USE_LIBNUMA h); reflexivity. Qed.

Lemma pg_numa_get_max_node_eq (h : Host) (w : World) :
  pg_numa_get_max_node h w =
  if USE_LIBNUMA h
  then (Returned (libnuma_max_node h),
        set_errno (errno_after h call_numa_max_node (errno w)) w)
  else (Returned 0, w).
Proof. exec. destruct (USE_LIBNUMA h); reflexivity. Qed.

Lemma pg_numa_query_pages_stub (h : Host) (pid count pages status : Z)
      (w : World) :
  USE_LIBNUMA h = false ->
  pg_numa_query_pages h pid count pages status w = (Returned 0, w).
Proof. intros Hb. exec. rewrite Hb. reflexivity. Qed.

Lemma pg_numa_get_pagesize_result (h : Host) (w : World) :
  result_of (pg_numa_get_pagesize h w) =
  Returned (match huge_pages_status w with
            | HUGE_PAGES_ON => shmem_hugepagesize h
            | _ => os_default_page_size h
            end).
Proof.
  unfold os_default_page_size, configured_page_size.
  destruct w as [e hps lg pc ic]. exec.
  destruct (USE_LIBNUMA h), (WIN32 h), hps; reflexivity.
Qed.

(** ** Sample runs *)

Example numa_server_run :
  result_of (pg_numa_init numa_server quiet_world) = Returned 0 /\
  result_of (pg_numa_available numa_server 0 quiet_world) = Returned 1 /\
  result_of (pg_numa_get_max_node numa_server quiet_world) = Returned 1.
Proof. repeat split; reflexivity. Qed.

Example plain_host_run :
  result_of (pg_numa_init plain_host quiet_world) = Returned (-1) /\
  result_of (pg_numa_available plain_host 0 quiet_world) = Returned 0 /\
  result_of (pg_numa_get_max_node plain_host quiet_world) = Returned 0.
Proof. repeat split; reflexivity. Qed.

Example pg_numa_get_pagesize_run :
  result_of (pg_numa_get_pagesize numa_server quiet_world) = Returned 4096 /\
  result_of (pg_numa_get_pagesize numa_server huge_world) = Returned 2097152 /\
  result_of (pg_numa_get_pagesize windows_host quiet_world) = Returned 4096 /\
  result_of (pg_numa_get_pagesize plain_host quiet_world) = Returned 4096.
Proof. repeat split; reflexivity. Qed.

(** The page-size query itself does not restore [errno]. *)
Example pg_numa_get_pagesize_errno :
  errno (world_of (pg_numa_get_pagesize plain_host quiet_world)) = 22.
Proof. reflexivity. Qed.

(* ------------------------------------------------------------------ *)
(** ** Availability *)

(** C1: the availability check reports whether NUMA information can be
    obtained.  Both [pg_numa_init] and [pg_numa_available] return to their
    caller (neither raises an error).  [pg_numa_init] yields what libnuma's
    [numa_available] answers on a libnuma build and -1 on a build without
    libnuma; [pg_numa_available] yields the boolean Datum of "that value
    differs from -1": true if and only if [pg_numa_init] yields a value
    different from -1, and false only for the negative sentinel -1. *)
Theorem pg_numa_available_reports_init (h : Host) (fcinfo : Z) (w : World) :
  let r := if USE_LIBNUMA h then libnuma_available h else -1 in
  let d := BoolGetDatum (negb (r =? -1)) in
  result_of (pg_numa_init h w) = Returned r /\
  result_of (pg_numa_available h fcinfo w) = Returned d /\
  (DatumGetBool d = true <-> r <> -1) /\
  (DatumGetBool d = false -> r = -1 /\ r < 0) /\
  (USE_LIBNUMA h = true ->
   (DatumGetBool d = true <-> libnuma_available h <> -1)) /\
  (USE_LIBNUMA h = false -> r = -1 /\ DatumGetBool d = false).
Proof.
  cbv zeta. unfold pg_numa_available, bind, ret, result_of.
  rewrite pg_numa_init_eq.
  destruct (USE_LIBNUMA h); cbn [fst snd].
  - split; [reflexivity|]. split; [reflexivity|].
    destruct (Z.eqb_spec (libnuma_available h) (-1)) as [Heq|Hne]; cbn.
    + rewrite Heq. repeat split; intros; try discriminate; try lia;
        try contradiction.
    + repeat split; intros; try discriminate; try lia; try assumption;
        try reflexivity.
  - split; [reflexivity|]. split; [reflexivity|]. cbn.
    repeat split; intros; try discriminate; try lia; try contradiction.
Qed.

(** C9: on a build without libnuma, [pg_numa_init] returns -1 whatever the
    host hardware, and therefore [pg_numa_available] returns false. *)
Theorem pg_numa_available_stub_false (h : Host) (fcinfo : Z) (w : World) :
  USE_LIBNUMA h = false ->
  pg_numa_init h w = (Returned (-1), w) /\
  exists d,
    result_of (pg_numa_available h fcinfo w) = Returned d /\
    DatumGetBool d = false.
Proof.
  intros Hb. split.
  - rewrite pg_numa_init_eq, Hb. reflexivity.
  - exists (BoolGetDatum false).
    unfold pg_numa_available, bind, ret, result_of.
    rewrite pg_numa_init_eq, Hb. split; reflexivity.
Qed.

Lemma pg_numa_available_stub_false_witness :
  USE_LIBNUMA plain_host = false /\
  pg_numa_init plain_host quiet_world = (Returned (-1), quiet_world) /\
  exists d,
    result_of (pg_numa_available plain_host 0 quiet_world) = Returned d /\
    DatumGetBool d = false.
Proof.
  split; [reflexivity|].
  apply (pg_numa_available_stub_false plain_host 0 quiet_world).
  reflexivity.
Defined.

(* ------------------------------------------------------------------ *)
(** ** Page locations *)

(** C2: on a build without NUMA support the page-location query returns 0
    for every process id, page count, pages array and status array. *)
Theorem pg_numa_query_pages_stub_zero
        (h : Host) (pid count pages status : Z) (w : World) :
  USE_LIBNUMA h = false ->
  result_of (pg_numa_query_pages h pid count pages status w) = Returned 0.
Proof.
  intros Hb. rewrite pg_numa_query_pages_stub by exact Hb. reflexivity.
Qed.

Lemma pg_numa_query_pages_stub_zero_witness :
  USE_LIBNUMA plain_host = false /\
  result_of (pg_numa_query_pages plain_host 4711 2 100 200 caller_world)
  = Returned 0.
Proof.
  split; [reflexivity|].
  apply (pg_numa_query_pages_stub_zero plain_host 4711 2 100 200 caller_world).
  reflexivity.
Defined.

(** C8: on a build without NUMA support [pg_numa_query_pages] stores
    nothing through its pointer arguments: the state after the call is the
    state before it, so every entry of the status array and of the pages
    array is what it was. *)
Theorem pg_numa_query_pages_stub_writes_nothing
        (h : Host) (pid count pages status : Z) (w : World) :
  USE_LIBNUMA h = false ->
  let w' := world_of (pg_numa_query_pages h pid count pages status w) in
  w' = w /\
  (forall i, int_cells w' !! (status + i) = int_cells w !! (status + i)) /\
  (forall i, ptr_cells w' !! (pages + i) = ptr_cells w !! (pages + i)).
Proof.
  intros Hb. rewrite pg_numa_query_pages_stub by exact Hb.
  cbn. repeat split; reflexivity.
Qed.

Lemma pg_numa_query_pages_stub_writes_nothing_witness :
  USE_LIBNUMA plain_host = false /\
  let w' := world_of (pg_numa_query_pages plain_host 4711 2 100 200 caller_world) in
  w' = caller_world /\
  (forall i, int_cells w' !! (200 + i) = int_cells caller_world !! (200 + i)) /\
  (forall i, ptr_cells w' !! (100 + i) = ptr_cells caller_world !! (100 + i)).
Proof.
  split; [reflexivity|].
  apply (pg_numa_query_pages_stub_writes_nothing
           plain_host 4711 2 100 200 caller_world).
  reflexivity.
Defined.

(** With libnuma the same call does fill the status array. *)
Example pg_numa_query_pages_libnuma_fills_status :
  let w' := world_of (pg_numa_query_pages numa_server 4711 2 100 200 caller_world) in
  int_cells caller_world !! 200 = Some 7 /\
  int_cells w' !! 200 = Some 0 /\ int_cells w' !! 201 = Some 0.
Proof. vm_compute. repeat split; reflexivity. Qed.

(* ------------------------------------------------------------------ *)
(** ** Highest node *)

(** C3, as the claim has it, fails: on a libnuma build whose
    [pg_numa_init] reports -1, [pg_numa_get_max_node] still returns what
    [numa_max_node] says, here 1. *)
Lemma pg_numa_get_max_node_unavailable_nonzero :
  result_of (pg_numa_init confined_server quiet_world) = Returned (-1) /\
  result_of (pg_numa_get_max_node confined_server quiet_world) = Returned 1 /\
  ~ (forall h w,
        result_of (pg_numa_init h w) = Returned (-1) ->
        result_of (pg_numa_get_max_node h w) = Returned 0).
Proof.
  split; [reflexivity|]. split; [reflexivity|].
  intros H. specialize (H confined_server quiet_world eq_refl).
  discriminate H.
Qed.

(** C3 (amended): [pg_numa_get_max_node] returns the highest-numbered node
    libnuma reports on a libnuma build, whether or not [pg_numa_init]
    reports NUMA as available, and zero unconditionally on a build without
    libnuma. *)
Theorem pg_numa_get_max_node_value (h : Host) (w : World) :
  result_of (pg_numa_get_max_node h w) =
  Returned (if USE_LIBNUMA h then libnuma_max_node h else 0).
Proof.
  rewrite pg_numa_get_max_node_eq. destruct (USE_LIBNUMA h); reflexivity.
Qed.

(* ------------------------------------------------------------------ *)
(** ** Page size *)

(** C10: [pg_numa_get_pagesize] replaces the default page size by the
    huge-page size exactly when [huge_pages_status] is [HUGE_PAGES_ON];
    for off, try and unknown it returns the unadjusted default page size
    of the operating system. *)
Theorem pg_numa_get_pagesize_only_when_on (h : Host) (w : World) :
  result_of (pg_numa_get_pagesize h w) =
  Returned (match huge_pages_status w with
            | HUGE_PAGES_ON => shmem_hugepagesize h
            | HUGE_PAGES_OFF | HUGE_PAGES_TRY | HUGE_PAGES_UNKNOWN =>
                os_default_page_size h
            end).
Proof.
  rewrite pg_numa_get_pagesize_result.
  destruct (huge_pages_status w); reflexivity.
Qed.

(** C4, as the claim has it, fails: the value [GetHugePageSize] stores
    replaces the page size of the operating system whether it is larger
    or not.  With large pages on and a huge-page size of zero the result
    drops from 4096 to 0. *)
Lemma pg_numa_get_pagesize_adjusted_downward :
  result_of (pg_numa_get_pagesize windows_large_pages_host quiet_world)
  = Returned 4096 /\
  result_of (pg_numa_get_pagesize windows_large_pages_host huge_world)
  = Returned 0 /\
  ~ (forall h w,
        huge_pages_status w = HUGE_PAGES_ON ->
        exists v,
          result_of (pg_numa_get_pagesize h w) = Returned v /\
          os_default_page_size h <= v).
Proof.
  split; [reflexivity|]. split; [reflexivity|].
  intros H.
  destruct (H windows_large_pages_host huge_world eq_refl) as (v & Hv & Hle).
  injection Hv as <-. vm_compute in Hle. apply Hle. reflexivity.
Qed.

(** C4 (amended): [pg_numa_get_pagesize] returns the page size of the
    operating system, and when huge pages are on it returns instead the
    huge-page size [GetHugePageSize] stores, without comparing the two.
    The result is above the page size of the operating system exactly
    when huge pages are on and the huge-page size is above it. *)
Theorem pg_numa_get_pagesize_replaces_when_on (h : Host) (w : World) :
  exists v,
    result_of (pg_numa_get_pagesize h w) = Returned v /\
    (huge_pages_status w <> HUGE_PAGES_ON -> v = os_default_page_size h) /\
    (huge_pages_status w = HUGE_PAGES_ON -> v = shmem_hugepagesize h) /\
    (os_default_page_size h < v <->
     huge_pages_status w = HUGE_PAGES_ON /\
     os_default_page_size h < shmem_hugepagesize h) /\
    (v < os_default_page_size h <->
     huge_pages_status w = HUGE_PAGES_ON /\
     shmem_hugepagesize h < os_default_page_size h).
Proof.
  rewrite pg_numa_get_pagesize_result.
  destruct (huge_pages_status w) eqn:Hst; eexists;
    (split; [reflexivity|]);
    (split; [intros Hne; try reflexivity; exfalso; apply Hne; reflexivity|]);
    (split; [intros Heq; try reflexivity; discriminate Heq|]);
    split; split; try (intros [Heq _]; discriminate Heq);
    try (intros Hlt; split; [reflexivity | exact Hlt]);
    try (intros [_ Hlt]; exact Hlt); lia.
Qed.

(** C5, as the claim has it, fails: the routine passes on what the host
    reports and validates nothing.  A huge-page size of 12288 kB is
    returned as it is, and it is not a power of two; a huge-page size of
    zero is returned as zero, which is not positive. *)
Lemma pg_numa_get_pagesize_not_power_of_two :
  result_of (pg_numa_get_pagesize odd_huge_page_host huge_world)
  = Returned 12582912 /\
  is_power_of_two 12582912 = false /\
  result_of (pg_numa_get_pagesize windows_large_pages_host huge_world)
  = Returned 0 /\
  ~ (forall h w,
        exists v,
          result_of (pg_numa_get_pagesize h w) = Returned v /\
          0 < v /\ PowerOfTwo v).
Proof.
  split; [reflexivity|]. split; [reflexivity|]. split; [reflexivity|].
  intros H.
  destruct (H odd_huge_page_host huge_world) as (v & Hv & _ & Hp).
  injection Hv as <-.
  apply is_power_of_two_spec in Hp. discriminate Hp.
Qed.

(** C5 (amended): at every call [pg_numa_get_pagesize] returns the
    host's configured default page size converted to [Size], or the
    huge-page size [GetHugePageSize] stores when huge pages are on, and
    checks neither.  The result is a positive power of two exactly when
    that host value is one: with huge pages on, when the huge-page size
    is; otherwise, when the [long] the operating system reports is a
    power of two (it is then returned unchanged) or is the most negative
    [long]. *)
Theorem pg_numa_get_pagesize_passes_host_value (h : Host) (w : World) :
  exists v,
    result_of (pg_numa_get_pagesize h w) = Returned v /\
    v = (if decide (huge_pages_status w = HUGE_PAGES_ON)
         then shmem_hugepagesize h
         else to_Size (configured_page_size h)) /\
    (is_power_of_two v = true <-> 0 < v /\ PowerOfTwo v) /\
    (huge_pages_status w = HUGE_PAGES_ON ->
     (PowerOfTwo v <-> PowerOfTwo (shmem_hugepagesize h))) /\
    (huge_pages_status w <> HUGE_PAGES_ON ->
     - LONG_MAX - 1 <= configured_page_size h <= LONG_MAX ->
     (PowerOfTwo v <->
      PowerOfTwo (configured_page_size h) \/
      configured_page_size h = - LONG_MAX - 1) /\
     (PowerOfTwo (configured_page_size h) -> v = configured_page_size h)).
Proof.
  rewrite pg_numa_get_pagesize_result.
  exists (match huge_pages_status w with
          | HUGE_PAGES_ON => shmem_hugepagesize h
          | _ => os_default_page_size h
          end).
  split; [reflexivity|]. split; [|split; [|split]].
  - destruct (huge_pages_status w); reflexivity.
  - rewrite is_power_of_two_spec. split.
    + intros Hp. split; [apply PowerOfTwo_pos|]; exact Hp.
    + intros [_ Hp]. exact Hp.
  - intros ->. reflexivity.
  - intros Hoff Hlong.
    assert (Hv : match huge_pages_status w with
                 | HUGE_PAGES_ON => shmem_hugepagesize h
                 | _ => os_default_page_size h
                 end = to_Size (configured_page_size h)).
    { destruct (huge_pages_status w); try reflexivity.
      exfalso. apply Hoff. reflexivity. }
    rewrite Hv. split.
    + apply to_Size_long_pow2. exact Hlong.
    + intros Hp. apply to_Size_page; [exact Hp | lia].
Qed.

(** A server with ordinary page sizes: 4096 without huge pages, 2 MB with
    them, both powers of two. *)
Example pg_numa_get_pagesize_usual_host :
  result_of (pg_numa_get_pagesize numa_server quiet_world) = Returned 4096 /\
  is_power_of_two 4096 = true /\
  result_of (pg_numa_get_pagesize numa_server huge_world) = Returned 2097152 /\
  is_power_of_two 2097152 = true.
Proof. repeat split; reflexivity. Qed.

(* ------------------------------------------------------------------ *)
(** ** The logging adapters *)

(** A report below [ERROR] may change [errno], which is why the adapters
    save and restore it. *)
Example ereport_may_change_errno :
  errno quiet_world = 0 /\
  errno (world_of (ereport plain_host WARNING None "x" quiet_world)) = 22.
Proof. split; reflexivity. Qed.

(** On a host whose every call leaves [errno] at 1, the caller's 5
    survives both adapters. *)
Example numa_adapters_run :
  Libnuma.numa_error confined_server "mbind" caller_world =
  (Returned tt,
   mkWorld 5 HUGE_PAGES_OFF [mkLogEntry WARNING None "libnuma: ERROR: mbind"]
           (ptr_cells caller_world) (int_cells caller_world)) /\
  Libnuma.numa_warn confined_server 1 "node out of range" [] caller_world =
  (Returned tt,
   mkWorld 5 HUGE_PAGES_OFF
           [mkLogEntry WARNING (Some ERRCODE_EXTERNAL_ROUTINE_EXCEPTION)
                       "libnuma: WARNING: node out of range"]
           (ptr_cells caller_world) (int_cells caller_world)).
Proof. split; reflexivity. Qed.

(** The text of the warning ends up in the buffer whole, whether the
    first attempt fits or the buffer has to be enlarged once. *)
Lemma numa_warn_eq (h : Host) (num : Z) (fmt : string) (ap : list Z)
      (w : World) :
  Libnuma.numa_warn h num fmt ap w =
  (Returned tt,
   mkWorld (errno w) (huge_pages_status w)
           (server_log w ++
              [mkLogEntry WARNING (Some ERRCODE_EXTERNAL_ROUTINE_EXCEPTION)
                 (String.append "libnuma: WARNING: " (vsnprintf_text h fmt ap))])
           (ptr_cells w) (int_cells w)).
Proof.
  destruct w as [e hps lg pc ic]. exec.
  unfold STRINGINFO_DEFAULT_SIZE.
  set (n := Z.of_nat (String.length (vsnprintf_text h fmt ap))).
  assert (Hn : 0 <= n) by (subst n; lia).
  destruct (Z.ltb_spec n (1024 - 0)) as [Hfit|Hbig]; cbn.
  - reflexivity.
  - destruct (Z.ltb_spec 0 (n + 1)) as [_|Hneg]; [|lia]. cbn.
    fold n.
    destruct (Z.ltb_spec n (Z.max 1024 (0 + (n + 1) + 1) - 0)) as [_|Hno];
      [|lia].
    reflexivity.
Qed.

Lemma numa_error_eq (h : Host) (where_ : string) (w : World) :
  Libnuma.numa_error h where_ w =
  (Returned tt,
   mkWorld (errno w) (huge_pages_status w)
           (server_log w ++
              [mkLogEntry WARNING None
                 (String.append "libnuma: ERROR: " where_)])
           (ptr_cells w) (int_cells w)).
Proof. destruct w as [e hps lg pc ic]. reflexivity. Qed.

(** C6: [numa_warn] and [numa_error] hand libnuma's message to the
    diagnostic channel as one report of level [WARNING], return to their
    caller, and leave [errno] as they found it, whatever its value and
    whatever the calls in between did to it. *)
Theorem numa_adapters_preserve_errno (h : Host) (w : World) :
  (forall num fmt ap,
      let r := Libnuma.numa_warn h num fmt ap w in
      result_of r = Returned tt /\
      errno (world_of r) = errno w /\
      exists e,
        server_log (world_of r) = server_log w ++ [e] /\
        le_level e = WARNING /\ is_fatal (le_level e) = false /\
        le_message e =
          String.append "libnuma: WARNING: " (vsnprintf_text h fmt ap)) /\
  (forall where_,
      let r := Libnuma.numa_error h where_ w in
      result_of r = Returned tt /\
      errno (world_of r) = errno w /\
      exists e,
        server_log (world_of r) = server_log w ++ [e] /\
        le_level e = WARNING /\ is_fatal (le_level e) = false /\
        le_message e = String.append "libnuma: ERROR: " where_).
Proof.
  split.
  - intros num fmt ap. cbv zeta. rewrite numa_warn_eq.
    cbn. repeat split. eexists. repeat split.
  - intros where_. cbv zeta. rewrite numa_error_eq.
    cbn. repeat split. eexists. repeat split.
Qed.

(* ------------------------------------------------------------------ *)
(** ** Statelessness *)

Lemma read_ptrs_cells (w w0 : World) (base count : Z) :
  ptr_cells w0 = ptr_cells w -> read_ptrs w0 base count = read_ptrs w base count.
Proof. intros Hp. unfold read_ptrs. rewrite Hp. reflexivity. Qed.

Lemma pg_numa_query_pages_libnuma (h : Host) (pid count pages status : Z)
      (w : World) :
  USE_LIBNUMA h = true ->
  pg_numa_query_pages h pid count pages status w =
  let r := libnuma_move_pages h pid count (read_ptrs w pages count) NULL 0 in
  (Returned (fst r),
   mkWorld (errno_after h call_numa_move_pages (errno w))
           (huge_pages_status w) (server_log w) (ptr_cells w)
           (write_ints status (take (Z.to_nat count) (snd r)) (int_cells w))).
Proof.
  intros Hb. destruct w as [e hps lg pc ic]. exec. rewrite Hb.
  unfold read_ptrs; cbn.
  destruct (libnuma_move_pages h pid count _ NULL 0) as [r st].
  reflexivity.
Qed.

(** Every operation returns, and what it returns is decided by the host,
    the arguments, [huge_pages_status] and the pages the caller passes. *)
Lemma run_result (h : Host) (op : Op) (w : World) :
  exists v,
    forall w0,
      huge_pages_status w0 = huge_pages_status w ->
      ptr_cells w0 = ptr_cells w ->
      result_of (run h op w0) = Returned v.
Proof.
  destruct op as [|pid count pages status| | |fcinfo|num fmt ap|where_].
  - exists (VInt (if USE_LIBNUMA h then libnuma_available h else -1)).
    intros w0 _ _. unfold run, returning, bind, ret, result_of.
    rewrite pg_numa_init_eq. destruct (USE_LIBNUMA h); reflexivity.
  - destruct (USE_LIBNUMA h) eqn:Hb.
    + exists (VInt (fst (libnuma_move_pages h pid count
                          (read_ptrs w pages count) NULL 0))).
      intros w0 _ Hp. unfold run, returning, bind, ret, result_of.
      rewrite pg_numa_query_pages_libnuma by exact Hb.
      cbn. rewrite (read_ptrs_cells w w0) by exact Hp. reflexivity.
    + exists (VInt 0). intros w0 _ _.
      unfold run, returning, bind, ret, result_of.
      rewrite pg_numa_query_pages_stub by exact Hb. reflexivity.
  - exists (VInt (if USE_LIBNUMA h then libnuma_max_node h else 0)).
    intros w0 _ _. unfold run, returning, bind, ret, result_of.
    rewrite pg_numa_get_max_node_eq. destruct (USE_LIBNUMA h); reflexivity.
  - exists (VInt (match huge_pages_status w with
                  | HUGE_PAGES_ON => shmem_hugepagesize h
                  | _ => os_default_page_size h
                  end)).
    intros w0 Hs _.
    pose proof (pg_numa_get_pagesize_result h w0) as Hr.
    unfold run, returning, bind, ret, result_of in *.
    destruct (pg_numa_get_pagesize h w0) as [[v|e] w1]; cbn in *;
      [|discriminate Hr].
    injection Hr as ->. rewrite Hs. reflexivity.
  - exists (VInt (BoolGetDatum
                    (negb ((if USE_LIBNUMA h then libnuma_available h else -1)
                           =? -1)))).
    intros w0 _ _.
    unfold run, returning, pg_numa_available, bind, ret, result_of.
    rewrite pg_numa_init_eq. destruct (USE_LIBNUMA h); reflexivity.
  - exists VVoid. intros w0 _ _. unfold run, returning, bind, ret, result_of.
    rewrite numa_warn_eq. reflexivity.
  - exists VVoid. intros w0 _ _. unfold run, returning, bind, ret, result_of.
    rewrite numa_error_eq. reflexivity.
Qed.

(** No operation writes [huge_pages_status] or the caller's pages. *)
Lemma run_frame (h : Host) (op : Op) (w : World) :
  huge_pages_status (world_of (run h op w)) = huge_pages_status w /\
  ptr_cells (world_of (run h op w)) = ptr_cells w.
Proof.
  destruct op as [|pid count pages status| | |fcinfo|num fmt ap|where_];
    unfold run, returning, bind, ret, world_of.
  - rewrite pg_numa_init_eq. destruct (USE_LIBNUMA h); split; reflexivity.
  - destruct (USE_LIBNUMA h) eqn:Hb.
    + rewrite pg_numa_query_pages_libnuma by exact Hb. split; reflexivity.
    + rewrite pg_numa_query_pages_stub by exact Hb. split; reflexivity.
  - rewrite pg_numa_get_max_node_eq. destruct (USE_LIBNUMA h); split; reflexivity.
  - destruct w as [e hps lg pc ic]. exec.
    destruct (USE_LIBNUMA h), (WIN32 h), hps; split; reflexivity.
  - unfold pg_numa_available, bind, ret. rewrite pg_numa_init_eq.
    destruct (USE_LIBNUMA h); split; reflexivity.
  - rewrite numa_warn_eq. split; reflexivity.
  - rewrite numa_error_eq. split; reflexivity.
Qed.

(** The five query routines report nothing to the diagnostic channel. *)
Lemma run_query_silent (h : Host) (op : Op) (w : World) :
  is_query op = true ->
  server_log (world_of (run h op w)) = server_log w.
Proof.
  destruct op as [|pid count pages status| | |fcinfo|num fmt ap|where_];
    intros Hq; try discriminate Hq;
    unfold run, returning, bind, ret, world_of.
  - rewrite pg_numa_init_eq. destruct (USE_LIBNUMA h); reflexivity.
  - destruct (USE_LIBNUMA h) eqn:Hb.
    + rewrite pg_numa_query_pages_libnuma by exact Hb. reflexivity.
    + rewrite pg_numa_query_pages_stub by exact Hb. reflexivity.
  - rewrite pg_numa_get_max_node_eq. destruct (USE_LIBNUMA h); reflexivity.
  - destruct w as [e hps lg pc ic]. exec.
    destruct (USE_LIBNUMA h), (WIN32 h), hps; reflexivity.
  - unfold pg_numa_available, bind, ret. rewrite pg_numa_init_eq.
    destruct (USE_LIBNUMA h); reflexivity.
Qed.

(** C7: the operations are stateless between calls.  For a fixed host,
    calling an operation a second time with the same arguments returns the
    value the first call returned; no call writes [huge_pages_status] or
    the pages array, the query routines leave the diagnostic channel
    alone, and the value returned depends on the state only through
    [huge_pages_status] and the pages passed in. *)
Theorem operations_stateless (h : Host) (op : Op) (w : World) :
  let first := run h op w in
  let second := run h op (world_of first) in
  (exists v, result_of first = Returned v /\ result_of second = Returned v) /\
  huge_pages_status (world_of first) = huge_pages_status w /\
  ptr_cells (world_of first) = ptr_cells w /\
  (is_query op = true -> server_log (world_of first) = server_log w) /\
  (forall w0,
      huge_pages_status w0 = huge_pages_status w ->
      ptr_cells w0 = ptr_cells w ->
      result_of (run h op w0) = result_of first).
Proof.
  cbv zeta.
  destruct (run_result h op w) as [v Hv].
  destruct (run_frame h op w) as [Hs Hp].
  split; [|split; [exact Hs|split; [exact Hp|split]]].
  - exists v. split; [apply Hv; reflexivity | apply Hv; assumption].
  - apply run_query_silent.
  - intros w0 Hs0 Hp0. rewrite (Hv w0 Hs0 Hp0).
    symmetry. apply Hv; reflexivity.
Qed.


(* ------------------------------------------------------------------ *)
(** * Further properties *)

(** ** Stores into the status array *)

Lemma write_ints_outside (vs : list Z) (base : Z) (m : gmap Z Z) (a : Z) :
  a < base \/ base + Z.of_nat (length vs) <= a ->
  write_ints base vs m !! a = m !! a.
Proof.
  revert base m. induction vs as [|v vs IH]; intros base m Ha; cbn.
  - reflexivity.
  - rewrite IH by (cbn in Ha; lia).
    apply lookup_insert_ne. cbn in Ha. lia.
Qed.

Lemma write_ints_inside (vs : list Z) (base : Z) (m : gmap Z Z) (i : nat) :
  (i < length vs)%nat ->
  write_ints base vs m !! (base + Z.of_nat i) = vs !! i.
Proof.
  revert base m i. induction vs as [|v vs IH]; intros base m i Hi; cbn in *.
  - lia.
  - destruct i as [|i].
    + rewrite write_ints_outside by lia.
      replace (base + Z.of_nat 0) with base by lia.
      apply lookup_insert_eq.
    + replace (base + Z.of_nat (S i)) with (base + 1 + Z.of_nat i) by lia.
      apply IH. lia.
Qed.

(** X4: with libnuma, [pg_numa_query_pages] returns what
    [numa_move_pages] returns for a null [nodes] array and no flags, and
    stores only into [status[0..count)]: entry [i] receives the [i]-th
    status libnuma reports, every [int] cell outside that range keeps its
    value, nothing is stored when [count] is zero, and the pages array and
    the diagnostic channel are left alone. *)
Theorem pg_numa_query_pages_libnuma_stores
        (h : Host) (pid count pages status : Z) (w : World) :
  USE_LIBNUMA h = true ->
  let r := libnuma_move_pages h pid count (read_ptrs w pages count) NULL 0 in
  let call := pg_numa_query_pages h pid count pages status w in
  result_of call = Returned (fst r) /\
  (forall i : nat,
      (i < Z.to_nat count)%nat -> (i < length (snd r))%nat ->
      int_cells (world_of call) !! (status + Z.of_nat i) = snd r !! i) /\
  (forall a,
      a < status \/ status + Z.max 0 count <= a ->
      int_cells (world_of call) !! a = int_cells w !! a) /\
  (count <= 0 -> int_cells (world_of call) = int_cells w) /\
  ptr_cells (world_of call) = ptr_cells w /\
  server_log (world_of call) = server_log w.
Proof.
  intros Hb. cbv zeta.
  rewrite pg_numa_query_pages_libnuma by exact Hb. cbn.
  set (st := snd (libnuma_move_pages h pid count (read_ptrs w pages count) NULL 0)).
  split; [reflexivity|]. split; [|split; [|split; [|split; reflexivity]]].
  - intros i Hi Hlen.
    rewrite write_ints_inside by (rewrite length_take; lia).
    apply lookup_take_lt. exact Hi.
  - intros a Ha. apply write_ints_outside.
    rewrite length_take. lia.
  - intros Hc. replace (Z.to_nat count) with 0%nat by lia. reflexivity.
Qed.

Lemma pg_numa_query_pages_libnuma_stores_witness :
  USE_LIBNUMA two_node_server = true /\
  let r := libnuma_move_pages two_node_server 4711 2
             (read_ptrs caller_world 100 2) NULL 0 in
  let call := pg_numa_query_pages two_node_server 4711 2 100 200 caller_world in
  result_of call = Returned (fst r) /\
  (forall i : nat,
      (i < Z.to_nat 2)%nat -> (i < length (snd r))%nat ->
      int_cells (world_of call) !! (200 + Z.of_nat i) = snd r !! i) /\
  (forall a,
      a < 200 \/ 200 + Z.max 0 2 <= a ->
      int_cells (world_of call) !! a = int_cells caller_world !! a) /\
  (2 <= 0 -> int_cells (world_of call) = int_cells caller_world) /\
  ptr_cells (world_of call) = ptr_cells caller_world /\
  server_log (world_of call) = server_log caller_world.
Proof.
  split; [reflexivity|].
  apply (pg_numa_query_pages_libnuma_stores
           two_node_server 4711 2 100 200 caller_world).
  reflexivity.
Defined.

Example pg_numa_query_pages_two_nodes :
  let w' := world_of (pg_numa_query_pages two_node_server 4711 2 100 200
                                          caller_world) in
  int_cells w' !! 200 = Some 0 /\ int_cells w' !! 201 = Some 1 /\
  int_cells w' !! 202 = None /\ errno w' = 3.
Proof. vm_compute. repeat split; reflexivity. Qed.

(* ------------------------------------------------------------------ *)
(** ** Sequences of calls *)

Lemma run_returns (h : Host) (op : Op) (w : World) :
  exists v, run h op w = (Returned v, world_of (run h op w)).
Proof.
  destruct (run_result h op w) as [v Hv].
  specialize (Hv w eq_refl eq_refl). exists v.
  unfold result_of, world_of in *.
  destruct (run h op w) as [o w1]. cbn in *. rewrite Hv. reflexivity.
Qed.

Lemma run_all_cons (h : Host) (op : Op) (ops : list Op) (w : World) :
  exists v,
    run h op w = (Returned v, world_of (run h op w)) /\
    run_all h (op :: ops) w =
    match run_all h ops (world_of (run h op w)) with
    | (Returned vs, w2) => (Returned (v :: vs), w2)
    | (Raised e, w2) => (Raised e, w2)
    end.
Proof.
  destruct (run_returns h op w) as [v Hv]. exists v. split; [exact Hv|].
  cbn [run_all]. unfold bind at 1. rewrite Hv.
  unfold bind, ret. destruct (run_all h ops _) as [[vs|e] w2]; reflexivity.
Qed.

(** The state a sequence leaves is the state its last call leaves. *)
Lemma run_all_world_cons (h : Host) (op : Op) (ops : list Op) (w : World) :
  world_of (run_all h (op :: ops) w) =
  world_of (run_all h ops (world_of (run h op w))).
Proof.
  destruct (run_all_cons h op ops w) as (v & _ & ->).
  destruct (run_all h ops _) as [[vs|e] w2]; reflexivity.
Qed.

(** X1: whatever operations of this file are called, in whatever order and
    number, every one of them returns, [huge_pages_status] and the pages
    arrays stay as they were, and any operation called afterwards returns
    what it would have returned before. *)
Theorem run_all_keeps_answers (h : Host) (ops : list Op) (op : Op) (w : World) :
  let after := world_of (run_all h ops w) in
  (exists vs,
      result_of (run_all h ops w) = Returned vs /\ length vs = length ops) /\
  huge_pages_status after = huge_pages_status w /\
  ptr_cells after = ptr_cells w /\
  result_of (run h op after) = result_of (run h op w).
Proof.
  cbv zeta. revert w. induction ops as [|o ops IH]; intros w.
  - cbn. split; [exists []; split; reflexivity|]. repeat split; reflexivity.
  - destruct (IH (world_of (run h o w))) as ((vs & Hvs & Hlen) & Hs & Hp & Hr).
    destruct (run_frame h o w) as [Hs1 Hp1].
    rewrite run_all_world_cons.
    destruct (run_all_cons h o ops w) as (v & _ & Hcons).
    split; [|split; [congruence|split; [congruence|]]].
    + exists (v :: vs). rewrite Hcons.
      unfold result_of in *. destruct (run_all h ops _) as [[vs'|e] w2];
        cbn in *; [|discriminate Hvs].
      injection Hvs as ->. split; [reflexivity | cbn; lia].
    + rewrite Hr.
      destruct (run_result h op w) as [x Hx].
      rewrite (Hx _ Hs1 Hp1). symmetry. apply Hx; reflexivity.
Qed.

(** X2: however many times libnuma calls the two adapters, and in whatever
    order, [errno] and the caller's memory end as they began, and the
    diagnostic channel has received exactly one report per call, each of
    level [WARNING]. *)
Theorem adapters_preserve_errno_in_sequence
        (h : Host) (ops : list Op) (w : World) :
  forallb is_adapter ops = true ->
  let after := world_of (run_all h ops w) in
  errno after = errno w /\
  int_cells after = int_cells w /\
  exists es,
    server_log after = server_log w ++ es /\
    length es = length ops /\
    Forall (fun e => le_level e = WARNING) es.
Proof.
  cbv zeta. revert w. induction ops as [|o ops IH]; intros w Hall.
  - cbn. repeat split. exists []. rewrite app_nil_r. repeat split. constructor.
  - cbn [forallb] in Hall. apply andb_true_iff in Hall as [Ho Hall].
    rewrite run_all_world_cons.
    destruct (IH (world_of (run h o w)) Hall) as (He & Hi & es & Hlog & Hlen & Hlev).
    rewrite He, Hi, Hlog. clear IH He Hi Hlog.
    destruct o as [|pid count pages status| | |fcinfo|num fmt ap|where_];
      try discriminate Ho;
      unfold run, returning, bind, ret, world_of.
    + rewrite numa_warn_eq. cbn. repeat split.
      eexists (_ :: es). rewrite <- app_assoc. cbn.
      split; [reflexivity|]. split; [lia|]. constructor; [reflexivity | exact Hlev].
    + rewrite numa_error_eq. cbn. repeat split.
      eexists (_ :: es). rewrite <- app_assoc. cbn.
      split; [reflexivity|]. split; [lia|]. constructor; [reflexivity | exact Hlev].
Qed.

Lemma adapters_preserve_errno_in_sequence_witness :
  let ops := [OpError "mbind"; OpWarn 1 "node out of range" []; OpError "mbind"] in
  forallb is_adapter ops = true /\
  let after := world_of (run_all confined_server ops caller_world) in
  errno after = errno caller_world /\
  int_cells after = int_cells caller_world /\
  exists es,
    server_log after = server_log caller_world ++ es /\
    length es = length ops /\
    Forall (fun e => le_level e = WARNING) es.
Proof.
  cbv zeta. split; [reflexivity|].
  apply (adapters_preserve_errno_in_sequence confined_server
           [OpError "mbind"; OpWarn 1 "node out of range" []; OpError "mbind"]
           caller_world).
  reflexivity.
Defined.

(** On a build without libnuma a query routine changes nothing but,
    at most, [errno]; only the page-size query makes a call that can. *)
Lemma run_stub_query (h : Host) (op : Op) (w : World) :
  USE_LIBNUMA h = false -> is_query op = true ->
  (exists e, world_of (run h op w) = set_errno e w) /\
  (is_pagesize op = false -> world_of (run h op w) = w).
Proof.
  intros Hb Hq.
  destruct op as [|pid count pages status| | |fcinfo|num fmt ap|where_];
    try discriminate Hq;
    unfold run, returning, bind, ret, world_of.
  - rewrite pg_numa_init_eq, Hb. cbn. split; [|reflexivity].
    exists (errno w). destruct w; reflexivity.
  - rewrite pg_numa_query_pages_stub by exact Hb. cbn. split; [|reflexivity].
    exists (errno w). destruct w; reflexivity.
  - rewrite pg_numa_get_max_node_eq, Hb. cbn. split; [|reflexivity].
    exists (errno w). destruct w; reflexivity.
  - split; [|discriminate].
    destruct w as [e hps lg pc ic]. exec. rewrite Hb.
    destruct (WIN32 h), hps; cbn; eexists; reflexivity.
  - unfold pg_numa_available, bind, ret. rewrite pg_numa_init_eq, Hb. cbn.
    split; [|reflexivity]. exists (errno w). destruct w; reflexivity.
Qed.

(** X3: on a build without libnuma, no sequence of the five query routines
    stores anything in the caller's memory or reports anything: the state
    afterwards differs from the state before in [errno] at most, and not
    at all when the page-size query is not among the calls. *)
Theorem stub_queries_change_errno_at_most
        (h : Host) (ops : list Op) (w : World) :
  USE_LIBNUMA h = false ->
  forallb is_query ops = true ->
  let after := world_of (run_all h ops w) in
  (exists e, after = set_errno e w) /\
  (existsb is_pagesize ops = false -> after = w).
Proof.
  intros Hb. cbv zeta. revert w. induction ops as [|o ops IH]; intros w Hall.
  - cbn. split; [|reflexivity]. exists (errno w). destruct w; reflexivity.
  - cbn [forallb] in Hall. apply andb_true_iff in Hall as [Ho Hall].
    rewrite run_all_world_cons.
    destruct (run_stub_query h o w Hb Ho) as [[e1 He1] Hsame].
    destruct (IH (world_of (run h o w)) Hall) as [[e2 He2] Hrest].
    split.
    + exists e2. rewrite He2, He1. destruct w; reflexivity.
    + intros Hno. cbn [existsb] in Hno.
      apply orb_false_iff in Hno as [Hno1 Hno2].
      rewrite Hrest by exact Hno2. apply Hsame. exact Hno1.
Qed.

Lemma stub_queries_change_errno_at_most_witness :
  let ops := [OpGetPagesize; OpQueryPages 4711 2 100 200; OpAvailable 0] in
  USE_LIBNUMA plain_host = false /\
  forallb is_query ops = true /\
  let after := world_of (run_all plain_host ops caller_world) in
  (exists e, after = set_errno e caller_world) /\
  (existsb is_pagesize ops = false -> after = caller_world).
Proof.
  cbv zeta. split; [reflexivity|]. split; [reflexivity|].
  apply (stub_queries_change_errno_at_most plain_host
           [OpGetPagesize; OpQueryPages 4711 2 100 200; OpAvailable 0]
           caller_world); reflexivity.
Defined.

(** The page-size query in that sequence did change [errno]. *)
Example stub_queries_errno :
  errno caller_world = 5 /\
  errno (world_of (run_all plain_host
                     [OpGetPagesize; OpQueryPages 4711 2 100 200; OpAvailable 0]
                     caller_world)) = 22.
Proof. split; reflexivity. Qed.

(* ------------------------------------------------------------------ *)
(** ** The page-size query in the two builds *)

(** X5: the file defines [pg_numa_get_pagesize] twice, once for each
    build.  Off Windows the two definitions are the same function: the same
    value returned and the same state left behind, in every state. *)
Theorem pg_numa_get_pagesize_builds_agree (h : Host) (w : World) :
  WIN32 h = false ->
  Libnuma.pg_numa_get_pagesize h w = Stub.pg_numa_get_pagesize h w.
Proof.
  intros Hw. destruct w as [e hps lg pc ic]. exec. rewrite Hw.
  destruct hps; reflexivity.
Qed.

Lemma pg_numa_get_pagesize_builds_agree_witness :
  WIN32 plain_host = false /\
  Libnuma.pg_numa_get_pagesize plain_host huge_world =
  Stub.pg_numa_get_pagesize plain_host huge_world.
Proof.
  split; [reflexivity|].
  apply (pg_numa_get_pagesize_builds_agree plain_host huge_world).
  reflexivity.
Defined.

Lemma to_Size_negative (z : Z) :
  - Size_modulus <= z < 0 -> to_Size z = Size_modulus + z.
Proof.
  intros Hz. unfold to_Size. symmetry.
  apply (Z.mod_unique_pos z Size_modulus (-1)); lia.
Qed.

(** X6: the return value of [sysconf] is stored into the unsigned
    [os_page_size] unchecked.  When [sysconf] reports failure (a negative
    [long], -1 by its contract) and huge pages are not on,
    [pg_numa_get_pagesize] returns that value wrapped around, a number
    above [LONG_MAX], and not an error. *)
Theorem pg_numa_get_pagesize_sysconf_unchecked (h : Host) (w : World) :
  negb (USE_LIBNUMA h) && WIN32 h = false ->
  - LONG_MAX - 1 <= os_sysconf h _SC_PAGESIZE < 0 ->
  huge_pages_status w <> HUGE_PAGES_ON ->
  result_of (pg_numa_get_pagesize h w)
  = Returned (Size_modulus + os_sysconf h _SC_PAGESIZE) /\
  LONG_MAX < Size_modulus + os_sysconf h _SC_PAGESIZE /\
  (os_sysconf h _SC_PAGESIZE = -1 ->
   result_of (pg_numa_get_pagesize h w) = Returned (2 ^ 64 - 1)).
Proof.
  intros Hposix Hneg Hoff.
  rewrite pg_numa_get_pagesize_result.
  unfold os_default_page_size, configured_page_size. rewrite Hposix.
  assert (Hm : Size_modulus = 2 * LONG_MAX + 2) by reflexivity.
  rewrite to_Size_negative by lia.
  assert (Hv : match huge_pages_status w with
               | HUGE_PAGES_ON => shmem_hugepagesize h
               | _ => Size_modulus + os_sysconf h _SC_PAGESIZE
               end = Size_modulus + os_sysconf h _SC_PAGESIZE).
  { destruct (huge_pages_status w); try reflexivity.
    exfalso. apply Hoff. reflexivity. }
  rewrite Hv. split; [reflexivity|]. split; [lia|].
  intros ->. reflexivity.
Qed.

Lemma pg_numa_get_pagesize_sysconf_unchecked_witness :
  negb (USE_LIBNUMA failing_sysconf_host) && WIN32 failing_sysconf_host = false /\
  - LONG_MAX - 1 <= os_sysconf failing_sysconf_host _SC_PAGESIZE < 0 /\
  huge_pages_status quiet_world <> HUGE_PAGES_ON /\
  result_of (pg_numa_get_pagesize failing_sysconf_host quiet_world)
  = Returned (Size_modulus + os_sysconf failing_sysconf_host _SC_PAGESIZE) /\
  LONG_MAX < Size_modulus + os_sysconf failing_sysconf_host _SC_PAGESIZE /\
  (os_sysconf failing_sysconf_host _SC_PAGESIZE = -1 ->
   result_of (pg_numa_get_pagesize failing_sysconf_host quiet_world)
   = Returned (2 ^ 64 - 1)).
Proof.
  assert (H1 : negb (USE_LIBNUMA failing_sysconf_host)
               && WIN32 failing_sysconf_host = false) by reflexivity.
  assert (H2 : - LONG_MAX - 1 <= os_sysconf failing_sysconf_host _SC_PAGESIZE < 0)
    by (vm_compute; split; [discriminate | reflexivity]).
  assert (H3 : huge_pages_status quiet_world <> HUGE_PAGES_ON) by discriminate.
  split; [exact H1|]. split; [exact H2|]. split; [exact H3|].
  exact (pg_numa_get_pagesize_sysconf_unchecked
           failing_sysconf_host quiet_world H1 H2 H3).
Defined.
